(** * The [open] command of the CLI (packages/cli/src/commands/open.ts)

    A shallow embedding of the command and of its URL helpers.  The
    command is sequential glue code around collaborators that live in other
    files (argument parsing, scope resolution, path validation, project
    linking, the REST client, the list prompt, the process launcher).  Each
    collaborator is an oracle of a [World]; what the command does to the
    outside is recorded as a trace of [Event]s, and [client.config], the only
    object the command writes to, is a finite map carried in the state.

    [getArgs], [getScope] and [client.fetch] may throw, as the command
    itself provides for; the other collaborators give a value.  The launcher
    is started and never waited for: it has an event and no answer. *)

From Stdlib Require Import ZArith Ascii.
From stdpp Require Import base option list strings gmap fin_maps.

Local Open Scope Z_scope.

(* ===================================================================== *)
(** ** JavaScript strings *)
(* ===================================================================== *)

(** Strings are sequences of bytes (UTF-8).  Every pattern searched for in
    this file is plain ASCII, and an ASCII byte never occurs inside a
    multi-byte sequence, so searching bytes agrees with searching UTF-16
    code units. *)
Module Js.

(** [s.indexOf(pat)]: position of the first occurrence of [pat] in [s]. *)
Fixpoint indexOf (pat s : string) : option nat :=
  if String.prefix pat s then Some 0%nat
  else match s with
       | EmptyString => None
       | String _ s' => S <$> indexOf pat s'
       end.

(** The characters of [s] before position [n], and those from [n] on. *)
Fixpoint take (n : nat) (s : string) : string :=
  match n, s with
  | S n', String c s' => String c (take n' s')
  | _, _ => EmptyString
  end.

Fixpoint drop (n : nat) (s : string) : string :=
  match n, s with
  | S n', String _ s' => drop n' s'
  | _, _ => s
  end.

(** [s.replace(pat, rep)] with a string pattern: only the first occurrence
    is replaced; [rep] is taken literally (it holds no [$] in this file). *)
Definition replace (pat rep s : string) : string :=
  match indexOf pat s with
  | None => s
  | Some pos => take pos s +:+ rep +:+ drop (pos + String.length pat) s
  end.

(** Truthiness of a string: every string but the empty one. *)
Definition truthy (s : string) : bool :=
  match s with EmptyString => false | String _ _ => true end.

(** [`${v}`] for a value that is a string or [undefined]; other values,
    a JSON [null] among them, are outside the model. *)
Definition template (v : option string) : string :=
  match v with Some s => s | None => "undefined" end.

(** [v || d] for a value that is a string or [undefined]. *)
Definition or_else (v : option string) (d : string) : string :=
  match v with
  | Some s => if truthy s then s else d
  | None => d
  end.

(** [pat] occurs for the first time in [a +:+ pat +:+ b] right after [a]:
    no other way to cut the string around [pat] has a shorter left part. *)
Definition first_after (pat a b : string) : Prop :=
  forall a' b', a +:+ pat +:+ b = a' +:+ pat +:+ b' ->
                (String.length a <= String.length a')%nat.

End Js.

(* ===================================================================== *)
(** ** Data model (the records of ../types that the command reads) *)
(* ===================================================================== *)

(** Modelled from the spec: the deployment records of ../types, a file that
    is not among the sources at hand; the spec only says that a project has
    latest deployments and per-environment targets.  The fields are the two
    the command reads; it reads [id] through [?.id?.replace] and tests [url]
    for truthiness, so either may be missing. *)
Record Deployment := {
  dep_id  : option string;
  dep_url : option string;
}.

(** Modelled from the spec: the per-environment targets of a project, of
    which the command reads [production] through [?.production]. *)
Record Targets := {
  production : option Deployment;
}.

(** Modelled from the spec: [Project] of ../types, with its name, id,
    latest deployments and targets.  The record fetched from the REST
    endpoint is cast to the same type; there the last two fields may be
    missing. *)
Record Project := {
  proj_name         : string;
  proj_id           : string;
  latestDeployments : option (list Deployment);
  targets           : option Targets;
}.

(** Modelled from the spec: [Org] of ../types, with its id, slug and type;
    the command compares the type with ['team']. *)
Record Org := {
  org_id   : string;
  org_slug : string;
  org_type : string;
}.

(** Modelled from the spec: [Team] of ../types, with its id. *)
Record Team := {
  team_id : string;
}.

(** The value of [getScope]: only [team], a [Team] or [null], is read. *)
Record Scope := {
  team : option Team;
}.

(** A thrown JavaScript error: only [code] and [message] are read. *)
Record Err := {
  err_code    : option string;
  err_message : string;
}.

(** The parsed command line.  A flag is [true] or missing. *)
Record Argv := {
  arg_help : option bool;
  arg_yes  : option bool;
}.

Definition flag (f : option bool) : bool := default false f.

(** The result of [validatePaths]. *)
Inductive Validate :=
| Valid (path : string)
| Invalid (exitCode : Z).

(** The result of [ensureLink]: an exit code or the linked project. *)
Inductive Linked :=
| LinkExit (code : Z)
| LinkProject (project : Project) (org : Org).

(** A choice of the list prompt. *)
Record Choice := {
  ch_name  : string;
  ch_value : string;
  ch_short : string;
}.

(** Something that either gives a value or throws. *)
Inductive Res (A : Type) :=
| Val (a : A)
| Thrown (e : Err).
Arguments Val {A} a.
Arguments Thrown {A} e.

(** [client.config]: an object from field names to values; [None] is the
    value [undefined]. *)
Abbreviation Config := (gmap string (option string)).

(* ===================================================================== *)
(** ** The world around the command *)
(* ===================================================================== *)

Record World := {
  (** [getArgs(client.argv.slice(2), {'--yes': Boolean})] *)
  getArgs : Res Argv;
  (** [getScope(client)] *)
  getScope : Res Scope;
  (** [process.cwd()] *)
  cwd : string;
  (** [validatePaths(client, paths)] *)
  validatePaths : list string -> Validate;
  (** [ensureLink('project connect', client, path, yes)] *)
  ensureLink : string -> string -> bool -> Linked;
  (** [client.fetch(url)]: the answer to the [n]-th request of the run; the
      client sees [client.config] when the request is made. *)
  fetch : nat -> Config -> string -> Res Project;
  (** [list(client, {message, choices})]: the value of the chosen entry,
      or the empty string when the user aborts. *)
  prompt : string -> list Choice -> string;
  (** [stringify({teamId})] of the querystring module *)
  stringify_teamId : option string -> string;
  (** [chalk.cyan(getCommandName(cmd))] *)
  cyan_command : string -> string;
  (** [link(url)] of ../util/output/link *)
  link : string -> string;
}.

(** What the command does to the outside, in order. *)
Inductive Event :=
| EHandleError (e : Err)                           (* handleError(error) *)
| EHelp                                            (* help() *)
| EError (msg : string)                            (* output.error(msg) *)
| ELog (msg : string)                              (* output.log(msg) *)
| EFetch (currentTeam : option (option string)) (url : string)
                                                   (* client.fetch(url) *)
| EPrompt (message : string) (choices : list Choice)
| EExeca (file : string) (args : list string).     (* execa(file, args) *)

Record State := {
  config  : Config;
  fetches : nat;
  trace   : list Event;
}.

(** Computations of the command: state passing, with exceptions. *)
Definition M (A : Type) : Type := State -> Res A * State.

Global Instance M_ret : MRet M := fun A a st => (Val a, st).
Global Instance M_bind : MBind M := fun A B f m st =>
  match m st with
  | (Val a, st') => f a st'
  | (Thrown e, st') => (Thrown e, st')
  end.

Definition throw {A} (e : Err) : M A := fun st => (Thrown e, st).

(** [try { m } catch (err) { h err }] *)
Definition try_catch {A} (m : M A) (h : Err -> M A) : M A := fun st =>
  match m st with
  | (Val a, st') => (Val a, st')
  | (Thrown e, st') => h e st'
  end.

(** The state after one more event, after a write to [client.config], and
    after one more request. *)
Definition st_emit (e : Event) (st : State) : State :=
  {| config := config st; fetches := fetches st; trace := trace st ++ [e] |}.

Definition st_set (k : string) (v : option string) (st : State) : State :=
  {| config := <[k := v]> (config st); fetches := fetches st;
     trace := trace st |}.

Definition st_fetch (url : string) (st : State) : State :=
  {| config := config st; fetches := S (fetches st);
     trace := trace st ++ [EFetch (config st !! "currentTeam") url] |}.

Definition emit (e : Event) : M unit := fun st => (Val tt, st_emit e st).

Definition set_config (k : string) (v : option string) : M unit := fun st =>
  (Val tt, st_set k v st).

(** One request through [client.fetch]. *)
Definition client_fetch (w : World) (url : string) : M Project := fun st =>
  (fetch w (fetches st) (config st) url, st_fetch url st).

(* ===================================================================== *)
(** ** The URL helpers *)
(* ===================================================================== *)

Definition getDashboardUrl (org : Org) (project : Project) : string :=
  "https://vercel.com/" +:+ org_slug org +:+ "/" +:+ proj_name project.

(** The path of [GET /v9/projects/:name] with its query string. *)
Definition projectUrl (w : World) (project : Project) (team : option Team)
  : string :=
  "/v9/projects/" +:+ proj_name project +:+ "?" +:+
  stringify_teamId w (team_id <$> team).

(** The [.catch] handler turns a failed request into [undefined]. *)
Definition getProject (w : World) (project : Project) (team : option Team)
  : M (option Project) :=
  try_catch
    (proj ← client_fetch w (projectUrl w project team);
     mret (Some proj))
    (fun err => _ ← emit (EError (err_message err)); mret None).

(** [proj.latestDeployments?.[0]] *)
Definition firstDeployment (proj : Project) : option Deployment :=
  latestDeployments proj ≫= head.

Definition inspectorUrlOf (org : Org) (project proj : Project)
  : option string :=
  match Js.replace "dpl_" "" <$> (firstDeployment proj ≫= dep_id) with
  | Some latestDeploymentId =>
      if Js.truthy latestDeploymentId
      then Some ("https://vercel.com/" +:+ org_slug org +:+ "/" +:+
                 proj_name project +:+ "/" +:+ latestDeploymentId)
      else None
  | None => None
  end.

Definition getInspectorUrl (w : World) (project : Project) (org : Org)
    (team : option Team) : M (option string) :=
  proj ← getProject w project team;
  mret (proj ≫= inspectorUrlOf org project).

Definition latestDeploymentUrlOf (proj : Project) : option string :=
  match firstDeployment proj ≫= dep_url with
  | Some url => if Js.truthy url then Some ("https://" +:+ url) else None
  | None => None
  end.

Definition getLatestDeploymentUrl (w : World) (project : Project)
    (team : option Team) : M (option string) :=
  proj ← getProject w project team;
  mret (proj ≫= latestDeploymentUrlOf).

(** Only the production target itself is tested, not its [url]. *)
Definition latestProdDeploymentOf (proj : Project) : option string :=
  match targets proj ≫= production with
  | Some prod => Some ("https://" +:+ Js.template (dep_url prod))
  | None => None
  end.

Definition getLatestProdDeployment (w : World) (project : Project)
    (team : option Team) : M (option string) :=
  proj ← getProject w project team;
  mret (proj ≫= latestProdDeploymentOf).

(* ===================================================================== *)
(** ** The command *)
(* ===================================================================== *)

Definition not_found : string := "not_found".

Definition menu (dashboardUrl : string)
    (inspectorUrl latestDeploymentUrl latestProductionDeployment
       : option string) : list Choice :=
  [ {| ch_name := "Dashboard";
       ch_value := dashboardUrl;
       ch_short := "Dashboard" |};
    {| ch_name := "Latest Deployment Inspector";
       ch_value := Js.or_else inspectorUrl not_found;
       ch_short := "Deployment Inspector" |};
    {| ch_name := "Latest Preview Deployment";
       ch_value := Js.or_else latestDeploymentUrl not_found;
       ch_short := "Latest Preview Deployment" |};
    {| ch_name := "Latest Production Deployment";
       ch_value := Js.or_else latestProductionDeployment not_found;
       ch_short := "Latest Production Deployment" |} ].

Definition no_deployments_message (w : World) : string :=
  "No deployments found. Run " +:+ cyan_command w "deploy" +:+
  " to create a deployment.".

Definition opened_message (w : World) (choice : string) : string :=
  "🪄 Opened " +:+ link w choice.

(** Lines 139-154: what follows the answer of the prompt. *)
Definition after_choice (w : World) (choice : string) : M Z :=
  if bool_decide (choice = not_found) then
    _ ← emit (ELog (no_deployments_message w)); mret 1
  else if bool_decide (choice = "") then
    mret 0
  else
    _ ← emit (EExeca "open" [choice]);
    _ ← emit (ELog (opened_message w choice));
    mret 0.

(** [org.type === 'team' ? org.id : undefined] *)
Definition currentTeamOf (org : Org) : option string :=
  if bool_decide (org_type org = "team") then Some (org_id org) else None.

Definition question : string := "What do you want to open?".

(** Lines 98-138: from the linked project to the answer of the prompt. *)
Definition choose (w : World) (project : Project) (org : Org)
    (team : option Team) : M string :=
  _ ← set_config "currentTeam" (currentTeamOf org);
  let dashboardUrl := getDashboardUrl org project in
  inspectorUrl ← getInspectorUrl w project org team;
  latestDeploymentUrl ← getLatestDeploymentUrl w project team;
  latestProductionDeployment ← getLatestProdDeployment w project team;
  let choices := menu dashboardUrl inspectorUrl latestDeploymentUrl
                      latestProductionDeployment in
  _ ← emit (EPrompt question choices);
  mret (prompt w question choices).

Definition scope_error_is_known (err : Err) : bool :=
  bool_decide (err_code err = Some "NOT_AUTHORIZED") ||
  bool_decide (err_code err = Some "TEAM_DELETED").

Definition open (w : World) : M Z :=
  match getArgs w with
  | Thrown error => _ ← emit (EHandleError error); mret 1
  | Val argv =>
    if flag (arg_help argv) then _ ← emit EHelp; mret 2
    else
      let yes := flag (arg_yes argv) in
      match getScope w with
      | Thrown err =>
          if scope_error_is_known err
          then _ ← emit (EError (err_message err)); mret 1
          else throw err
      | Val scope =>
          let paths := [cwd w] in
          match validatePaths w paths with
          | Invalid exitCode => mret exitCode
          | Valid path =>
              match ensureLink w "project connect" path yes with
              | LinkExit code => mret code
              | LinkProject project org =>
                  choice ← choose w project org (team scope);
                  after_choice w choice
              end
          end
      end
  end.

(** A run of the command from a given [client.config]. *)
Definition start (c : Config) : State :=
  {| config := c; fetches := 0; trace := [] |}.

Definition run (w : World) (c : Config) : Res Z * State :=
  open w (start c).

(** The project, org and team with which a run gets past project linking
    (line 98), when it does. *)
Definition linking (w : World) : option (Project * Org * option Team) :=
  match getArgs w, getScope w with
  | Val argv, Val scope =>
      if flag (arg_help argv) then None
      else match validatePaths w [cwd w] with
           | Valid path =>
               match ensureLink w "project connect" path
                       (flag (arg_yes argv)) with
               | LinkProject project org => Some (project, org, team scope)
               | LinkExit _ => None
               end
           | Invalid _ => None
           end
  | _, _ => None
  end.

(** The answer of the list prompt in a run that gets to it. *)
Definition chosen (w : World) (c : Config) : option string :=
  match linking w with
  | Some (project, org, tm) =>
      match choose w project org tm (start c) with
      | (Val choice, _) => Some choice
      | (Thrown _, _) => None
      end
  | None => None
  end.

(** The menu shown by the list prompt in a run that gets to it. *)
Definition shown (w : World) (c : Config) : option (list Choice) :=
  match linking w with
  | Some (project, org, tm) =>
      match last (trace (choose w project org tm (start c)).2) with
      | Some (EPrompt _ choices) => Some choices
      | _ => None
      end
  | None => None
  end.

(* ===================================================================== *)
(** ** Notions used to state what a run does *)
(* ===================================================================== *)

(** What a request leaves behind: its own event and, when it failed, the
    message written by the [.catch] handler. *)
Definition answer_events (t : option (option string)) (url : string)
    (r : Res Project) : list Event :=
  EFetch t url ::
  match r with Val _ => [] | Thrown e => [EError (err_message e)] end.

Definition answer_state (url : string) (r : Res Project) (st : State)
  : State :=
  {| config := config st; fetches := S (fetches st);
     trace := trace st ++ answer_events (config st !! "currentTeam") url r |}.

Definition answer_value (r : Res Project) : option Project :=
  match r with Val p => Some p | Thrown _ => None end.

(** The three requests of a run that starts in [st], one after the other,
    and the states between them. *)
Section Requests.
Context (w : World) (project : Project) (org : Org) (tm : option Team).
Context (st : State).

Definition st0 : State := st_set "currentTeam" (currentTeamOf org) st.

Definition request (k : nat) : Res Project :=
  fetch w (k + fetches st) (config st0) (projectUrl w project tm).

Definition st1 : State :=
  answer_state (projectUrl w project tm) (request 0) st0.

Definition st2 : State :=
  answer_state (projectUrl w project tm) (request 1) st1.

Definition st3 : State :=
  answer_state (projectUrl w project tm) (request 2) st2.

(** The menu built from the three answers. *)
Definition choices : list Choice :=
  menu (getDashboardUrl org project)
       (answer_value (request 0) ≫= inspectorUrlOf org project)
       (answer_value (request 1) ≫= latestDeploymentUrlOf)
       (answer_value (request 2) ≫= latestProdDeploymentOf).

End Requests.

(** The state in which the prompt has been answered. *)
Definition asked (w : World) (project : Project) (org : Org)
    (tm : option Team) (c : Config) : State :=
  st_emit (EPrompt question (choices w project org tm (start c)))
          (st3 w project org tm (start c)).

Definition answer (w : World) (project : Project) (org : Org)
    (tm : option Team) (c : Config) : string :=
  prompt w question (choices w project org tm (start c)).

(** Until the prompt has been answered the command has only made requests,
    written their failures and shown the menu. *)
Definition quiet (e : Event) : Prop :=
  match e with
  | EFetch _ _ | EError _ | EPrompt _ _ => True
  | _ => False
  end.

(** The page of deployment [dpl] of [project] in [org]. *)
Definition inspectorPage (org : Org) (project : Project) (dpl : string)
  : string :=
  "https://vercel.com/" +:+ org_slug org +:+ "/" +:+ proj_name project +:+
  "/" +:+ dpl.

(** What the fetched record says about the latest deployment and about
    the production target. *)
Definition latestDeploymentId (proj : Project) : option string :=
  firstDeployment proj ≫= dep_id.

Definition latestDeploymentUrl (proj : Project) : option string :=
  firstDeployment proj ≫= dep_url.

Definition productionTargetUrl (proj : Project) : option string :=
  (targets proj ≫= production) ≫= dep_url.

(** The values of the entries of the menu of a run. *)
Definition shown_values (w : World) (c : Config) : option (list string) :=
  (fun choices : list Choice => ch_value <$> choices) <$> shown w c.



(** The exit code that path validation or project linking hands to a run,
    at the call the run makes (lines 87 and 93), when one of them does. *)
Definition handed (w : World) : option Z :=
  match getArgs w, getScope w with
  | Val argv, Val _ =>
      if flag (arg_help argv) then None
      else match validatePaths w [cwd w] with
           | Invalid exitCode => Some exitCode
           | Valid path =>
               match ensureLink w "project connect" path
                       (flag (arg_yes argv)) with
               | LinkExit code => Some code
               | LinkProject _ _ => None
               end
           end
  | _, _ => None
  end.

(** The code is handed to the command by path validation or by project
    linking. *)
Definition handed_over (w : World) (code : Z) : Prop :=
  validatePaths w [cwd w] = Invalid code \/
  exists path yes, ensureLink w "project connect" path yes = LinkExit code.

(** An address with the scheme [https]. *)
Definition https (s : string) : Prop := String.prefix "https://" s = true.

(** Counting the events of one kind in a trace. *)
Definition is_fetch (e : Event) : bool :=
  match e with EFetch _ _ => true | _ => false end.

Definition count_events (p : Event -> bool) (l : list Event) : nat :=
  length (List.filter p l).

(** What the command does once the prompt has given [choice]. *)
Definition closing (w : World) (choice : string) : list Event :=
  if bool_decide (choice = not_found) then [ELog (no_deployments_message w)]
  else if bool_decide (choice = "") then []
  else [EExeca "open" [choice]; ELog (opened_message w choice)].

(* ===================================================================== *)
(** ** Sample worlds *)
(* ===================================================================== *)

Module Sample.

Definition site : Project :=
  {| proj_name := "site"; proj_id := "prj_1";
     latestDeployments := None; targets := None |}.

Definition acme : Org :=
  {| org_id := "team_1"; org_slug := "acme"; org_type := "team" |}.

Definition preview : Deployment :=
  {| dep_id := Some "dpl_abc123"; dep_url := Some "site-abc123.vercel.app" |}.

Definition live : Deployment :=
  {| dep_id := Some "dpl_prod"; dep_url := Some "site.vercel.app" |}.

(** The record of a project that has been deployed. *)
Definition deployed : Project :=
  {| proj_name := "site"; proj_id := "prj_1";
     latestDeployments := Some [preview];
     targets := Some {| production := Some live |} |}.

(** The record of a project whose production target carries no [url]. *)
Definition bare_target : Project :=
  {| proj_name := "site"; proj_id := "prj_1";
     latestDeployments := None;
     targets := Some {| production :=
                          Some {| dep_id := None; dep_url := None |} |} |}.

Definition offline : Err :=
  {| err_code := Some "ENOTFOUND"; err_message := "getaddrinfo ENOTFOUND" |}.

(** The team of the scope of the sample runs. *)
Definition crew : option Team := Some {| team_id := "team_1" |}.

(** A run that links [site] in [acme]; every request is answered by
    [answer] and the user picks what [pick] says. *)
Definition world (answer : Res Project) (pick : list Choice -> string)
  : World :=
  {| getArgs := Val {| arg_help := None; arg_yes := None |};
     getScope := Val {| team := crew |};
     cwd := "/home/me/site";
     validatePaths := fun paths => Valid (default "" (head paths));
     ensureLink := fun _ _ _ => LinkProject site acme;
     fetch := fun _ _ _ => answer;
     prompt := fun _ choices => pick choices;
     stringify_teamId := fun t => "teamId=" +:+ default "" t;
     cyan_command := fun cmd => "vercel " +:+ cmd;
     link := fun url => url |}.

Definition unauthorized : Err :=
  {| err_code := Some "NOT_AUTHORIZED"; err_message := "Not authorized" |}.

(** A run started with [--yes] whose scope resolution throws [err]. *)
Definition denied (err : Err) : World :=
  {| getArgs := Val {| arg_help := None; arg_yes := Some true |};
     getScope := Thrown err;
     cwd := "/home/me/site";
     validatePaths := fun paths => Valid (default "" (head paths));
     ensureLink := fun _ _ _ => LinkProject site acme;
     fetch := fun _ _ _ => Val deployed;
     prompt := fun _ _ => "";
     stringify_teamId := fun t => "teamId=" +:+ default "" t;
     cyan_command := fun cmd => "vercel " +:+ cmd;
     link := fun url => url |}.

(** A [client.config] that already names a team. *)
Definition settings : Config :=
  {[ "currentTeam" := Some "team_old"; "token" := Some "t" ]}.

(** The value of the [n]-th entry of the menu. *)
Definition nth_value (n : nat) (choices : list Choice) : string :=
  default "" (ch_value <$> choices !! n).

(** No request gets through; the user picks the Dashboard. *)
Definition unreachable : World := world (Thrown offline) (nth_value 0).

End Sample.

(** A run whose path validation fails with the exit code 3. *)
Definition refused : World :=
  {| getArgs := Val {| arg_help := None; arg_yes := None |};
     getScope := Val {| team := None |};
     cwd := "/home/me/site";
     validatePaths := fun _ => Invalid 3;
     ensureLink := fun _ _ _ => LinkProject Sample.site Sample.acme;
     fetch := fun _ _ _ => Val Sample.deployed;
     prompt := fun _ _ => "";
     stringify_teamId := fun t => "teamId=" +:+ default "" t;
     cyan_command := fun cmd => "vercel " +:+ cmd;
     link := fun url => url |}.

(** Every request gives [Sample.bare_target]; the user picks the Latest
    Production Deployment entry. *)
Definition bare_world : World :=
  Sample.world (Val Sample.bare_target) (Sample.nth_value 3).



(** A record whose latest deployment id holds [dpl_] twice, neither time
    at its start. *)
Definition twice : Project :=
  {| proj_name := "site"; proj_id := "prj_1";
     latestDeployments :=
       Some [ {| dep_id := Some "deploy_dpl_xdpl_y";
                 dep_url := Some "site-x.vercel.app" |} ];
     targets := None |}.

(** A run asked for its help text, whose scope resolution would fail. *)
Definition asking_help : World :=
  {| getArgs := Val {| arg_help := Some true; arg_yes := None |};
     getScope := Thrown Sample.offline;
     cwd := "/home/me/site";
     validatePaths := fun _ => Invalid 1;
     ensureLink := fun _ _ _ => LinkExit 1;
     fetch := fun _ _ _ => Thrown Sample.offline;
     prompt := fun _ _ => "";
     stringify_teamId := fun t => "teamId=" +:+ default "" t;
     cyan_command := fun cmd => "vercel " +:+ cmd;
     link := fun url => url |}.

(** A record whose first latest deployment has no [url], unlike the
    second. *)
Definition second_only : Project :=
  {| proj_name := "site"; proj_id := "prj_1";
     latestDeployments :=
       Some [ {| dep_id := Some "dpl_new"; dep_url := None |};
              Sample.preview ];
     targets := None |}.

(* ===================================================================== *)
(** ** How the helpers and the command run *)
(* ===================================================================== *)

Lemma bind_val {A B} (m : M A) (f : A -> M B) st a st' :
  m st = (Val a, st') -> (m ≫= f) st = f a st'.
Proof. intros H. unfold mbind, M_bind. by rewrite H. Qed.

Lemma getProject_eq w project tm st :
  getProject w project tm st =
  let url := projectUrl w project tm in
  let r := fetch w (fetches st) (config st) url in
  (Val (answer_value r), answer_state url r st).
Proof.
  unfold getProject, try_catch, client_fetch, mbind, M_bind, mret, M_ret.
  cbn zeta. destruct (fetch w _ _ _) as [p|e]; cbn.
  - reflexivity.
  - unfold emit, st_emit, st_fetch, answer_state; cbn.
    by rewrite <- app_assoc.
Qed.

Lemma helper_eq {A} (f : Project -> option A) w project tm st :
  (proj ← getProject w project tm; mret (proj ≫= f)) st =
  let url := projectUrl w project tm in
  let r := fetch w (fetches st) (config st) url in
  (Val (answer_value r ≫= f), answer_state url r st).
Proof.
  erewrite bind_val; [| apply getProject_eq]. reflexivity.
Qed.


Section RequestFacts.
Context (w : World) (project : Project) (org : Org) (tm : option Team).
Context (st : State).

Lemma choose_eq :
  choose w project org tm st =
  (Val (prompt w question (choices w project org tm st)),
   st_emit (EPrompt question (choices w project org tm st))
           (st3 w project org tm st)).
Proof.
  unfold choose, getInspectorUrl, getLatestDeploymentUrl,
    getLatestProdDeployment.
  rewrite (bind_val _ _ _ tt (st_set "currentTeam" (currentTeamOf org) st))
    by reflexivity.
  do 3 (erewrite bind_val; [| apply helper_eq]).
  reflexivity.
Qed.

Lemma trace_st3 :
  trace (st3 w project org tm st) =
  trace st ++
  answer_events (Some (currentTeamOf org)) (projectUrl w project tm)
    (request w project org tm st 0) ++
  answer_events (Some (currentTeamOf org)) (projectUrl w project tm)
    (request w project org tm st 1) ++
  answer_events (Some (currentTeamOf org)) (projectUrl w project tm)
    (request w project org tm st 2).
Proof.
  unfold st3, st2, st1, st0, answer_state, st_set. cbn [trace config].
  rewrite lookup_insert_eq. by rewrite <- !app_assoc.
Qed.

End RequestFacts.

(* ===================================================================== *)
(** ** Facts about [replace] *)
(* ===================================================================== *)

Module JsFacts.
Import Js.

Lemma app_cons c a b : String c a +:+ b = String c (a +:+ b).
Proof. reflexivity. Qed.

Lemma indexOf_unfold pat s :
  indexOf pat s =
  if String.prefix pat s then Some 0%nat
  else match s with
       | EmptyString => None
       | String _ s' => S <$> indexOf pat s'
       end.
Proof. by destruct s. Qed.

Lemma prefix_app pat b : String.prefix pat (pat +:+ b) = true.
Proof.
  induction pat as [|c pat IH]; simpl.
  - by destruct b.
  - destruct (Ascii.ascii_dec c c); [apply IH | done].
Qed.

Lemma prefix_split pat s :
  String.prefix pat s = true -> exists b, s = pat +:+ b.
Proof.
  revert s. induction pat as [|c pat IH]; intros s H.
  - by exists s.
  - destruct s as [|c' s]; simpl in H; [done|].
    destruct (Ascii.ascii_dec c c') as [->|]; [|done].
    destruct (IH _ H) as [b ->]. by exists b.
Qed.

Lemma take_app a b : take (String.length a) (a +:+ b) = a.
Proof.
  induction a as [|c a IH]; simpl.
  - by destruct b.
  - by rewrite IH.
Qed.

Lemma drop_app a n b : drop (String.length a + n) (a +:+ b) = drop n b.
Proof. induction a as [|c a IH]; simpl; [reflexivity | apply IH]. Qed.

Lemma drop_all a b : drop (String.length a) (a +:+ b) = b.
Proof.
  rewrite <- (Nat.add_0_r (String.length a)), drop_app. by destruct b.
Qed.

Lemma first_after_tail pat c a b :
  first_after pat (String c a) b -> first_after pat a b.
Proof.
  intros H a' b' E.
  apply le_S_n, (H (String c a') b'). by rewrite !app_cons, E.
Qed.

Lemma indexOf_first pat a b :
  first_after pat a b ->
  indexOf pat (a +:+ pat +:+ b) = Some (String.length a).
Proof.
  induction a as [|c a IH]; intros H.
  - change ("" +:+ pat +:+ b) with (pat +:+ b).
    by rewrite indexOf_unfold, prefix_app.
  - rewrite app_cons, indexOf_unfold.
    destruct (String.prefix pat (String c (a +:+ pat +:+ b))) eqn:P.
    + apply prefix_split in P as [b' E].
      specialize (H EmptyString b' E). simpl in H. lia.
    + rewrite IH by eauto using first_after_tail. reflexivity.
Qed.

Lemma indexOf_absent pat s :
  (forall a b, s <> a +:+ pat +:+ b) -> indexOf pat s = None.
Proof.
  induction s as [|c s IH]; intros H.
  - rewrite indexOf_unfold. destruct (String.prefix pat "") eqn:P; [|done].
    apply prefix_split in P as [b E]. by destruct (H EmptyString b).
  - rewrite indexOf_unfold.
    destruct (String.prefix pat (String c s)) eqn:P.
    + apply prefix_split in P as [b E]. by destruct (H EmptyString b).
    + rewrite IH; [done|].
      intros a b E. apply (H (String c a) b). by rewrite app_cons, E.
Qed.

(** Only the first occurrence goes, wherever it is. *)
Lemma replace_first pat rep a b :
  first_after pat a b ->
  replace pat rep (a +:+ pat +:+ b) = a +:+ rep +:+ b.
Proof.
  intros H. unfold replace. rewrite (indexOf_first _ _ _ H).
  by rewrite take_app, drop_app, drop_all.
Qed.

Lemma replace_absent pat rep s :
  (forall a b, s <> a +:+ pat +:+ b) -> replace pat rep s = s.
Proof. intros H. unfold replace. by rewrite indexOf_absent. Qed.

End JsFacts.

(* ===================================================================== *)
(** ** The inspector URL *)
(* ===================================================================== *)

Lemma getInspectorUrl_eq w project org tm st :
  getInspectorUrl w project org tm st =
  let url := projectUrl w project tm in
  let r := fetch w (fetches st) (config st) url in
  (Val (answer_value r ≫= inspectorUrlOf org project), answer_state url r st).
Proof. apply helper_eq. Qed.

Lemma inspectorUrlOf_id org project proj :
  inspectorUrlOf org project proj =
  match firstDeployment proj ≫= dep_id with
  | Some id =>
      let dpl := Js.replace "dpl_" "" id in
      if Js.truthy dpl then Some (inspectorPage org project dpl) else None
  | None => None
  end.
Proof.
  unfold inspectorUrlOf. by destruct (firstDeployment proj ≫= dep_id).
Qed.

(** C2: when the first latest deployment of the fetched record has the id
    [dpl_abc123], [getInspectorUrl] returns
    [https://vercel.com/{org}/{project}/abc123], for every org slug and
    project name. *)
Theorem C2_inspector_url_of_dpl_abc123
    (w : World) (project : Project) (org : Org) (tm : option Team)
    (st : State) (proj : Project) (d : Deployment) (rest : list Deployment) :
  fetch w (fetches st) (config st) (projectUrl w project tm) = Val proj ->
  latestDeployments proj = Some (d :: rest) ->
  dep_id d = Some "dpl_abc123" ->
  getInspectorUrl w project org tm st =
  (Val (Some ("https://vercel.com/" +:+ org_slug org +:+ "/" +:+
              proj_name project +:+ "/abc123")),
   st_fetch (projectUrl w project tm) st).
Proof.
  intros Hf Hl Hid. rewrite getInspectorUrl_eq. cbn zeta. rewrite Hf.
  cbn [answer_value mbind option_bind]. rewrite inspectorUrlOf_id.
  unfold firstDeployment. rewrite Hl. cbn [mbind option_bind head].
  rewrite Hid. reflexivity.
Qed.

Lemma C2_witness :
  getInspectorUrl
    (Sample.world (Val Sample.deployed) (Sample.nth_value 1))
    Sample.site Sample.acme None (start ∅) =
  (Val (Some "https://vercel.com/acme/site/abc123"),
   st_fetch "/v9/projects/site?teamId=" (start ∅)).
Proof.
  apply (C2_inspector_url_of_dpl_abc123
           (Sample.world (Val Sample.deployed) (Sample.nth_value 1))
           Sample.site Sample.acme None (start ∅)
           Sample.deployed Sample.preview []);
    reflexivity.
Defined.

(** C10: [getInspectorUrl] takes the first occurrence of [dpl_] out of the
    latest deployment id, wherever it stands, and nothing else: an
    occurrence in the middle goes, a second occurrence stays, an id without
    any is kept as it is; an id that is empty or missing, like one that is
    nothing but [dpl_], gives [undefined]. *)
Theorem C10_first_dpl_occurrence_removed
    (w : World) (project : Project) (org : Org) (tm : option Team)
    (st : State) (proj : Project) :
  fetch w (fetches st) (config st) (projectUrl w project tm) = Val proj ->
  let id := firstDeployment proj ≫= dep_id in
  let result := (getInspectorUrl w project org tm st).1 in
  let page dpl :=
    Val (if Js.truthy dpl then Some (inspectorPage org project dpl)
         else None) in
  (forall a b, id = Some (a +:+ "dpl_" +:+ b) ->
               Js.first_after "dpl_" a b -> result = page (a +:+ b))
  /\ (forall s, id = Some s -> (forall a b, s <> a +:+ "dpl_" +:+ b) ->
                result = page s)
  /\ (id = Some "deploy_dpl_xyz" ->
      result = Val (Some (inspectorPage org project "deploy_xyz")))
  /\ (id = Some "dpl_adpl_b" ->
      result = Val (Some (inspectorPage org project "adpl_b")))
  /\ (id = Some "" -> result = Val None)
  /\ (id = None -> result = Val None).
Proof.
  intros Hf id result page.
  assert (R : result =
              Val (match id with
                   | Some s => let dpl := Js.replace "dpl_" "" s in
                               if Js.truthy dpl
                               then Some (inspectorPage org project dpl)
                               else None
                   | None => None
                   end)).
  { unfold result. rewrite getInspectorUrl_eq. cbn zeta. rewrite Hf.
    cbn [fst answer_value mbind option_bind]. by rewrite inspectorUrlOf_id. }
  rewrite R. repeat split.
  - intros a b -> H. cbn zeta.
    rewrite (JsFacts.replace_first "dpl_" "" a b H). reflexivity.
  - intros s -> H. cbn zeta. by rewrite JsFacts.replace_absent.
  - by intros ->.
  - by intros ->.
  - by intros ->.
  - by intros ->.
Qed.

Lemma C10_witness :
  (getInspectorUrl
     (Sample.world (Val twice) (Sample.nth_value 1))
     Sample.site Sample.acme None (start ∅)).1 =
  Val (Some "https://vercel.com/acme/site/deploy_xdpl_y").
Proof.
  destruct (C10_first_dpl_occurrence_removed
              (Sample.world (Val twice) (Sample.nth_value 1))
              Sample.site Sample.acme None (start ∅) twice
              eq_refl) as [H _].
  apply (H "deploy_" "xdpl_y"); [reflexivity|].
  intros a' b' E.
  do 7 (destruct a' as [|? a']; [discriminate E|]).
  cbn. lia.
Defined.

(* ===================================================================== *)
(** ** Runs of the command *)
(* ===================================================================== *)

Lemma after_choice_eq w choice st :
  after_choice w choice st =
  if bool_decide (choice = not_found)
  then (Val 1, st_emit (ELog (no_deployments_message w)) st)
  else if bool_decide (choice = "")
  then (Val 0, st)
  else (Val 0, st_emit (ELog (opened_message w choice))
                 (st_emit (EExeca "open" [choice]) st)).
Proof. unfold after_choice. by repeat case_bool_decide. Qed.

Lemma linking_inv w project org tm :
  linking w = Some (project, org, tm) ->
  exists argv scope path,
    getArgs w = Val argv /\ flag (arg_help argv) = false /\
    getScope w = Val scope /\ team scope = tm /\
    validatePaths w [cwd w] = Valid path /\
    ensureLink w "project connect" path (flag (arg_yes argv)) =
      LinkProject project org.
Proof.
  unfold linking. intros H.
  destruct (getArgs w) as [argv|]; [|done].
  destruct (getScope w) as [scope|]; [|done].
  destruct (flag (arg_help argv)) eqn:Hh; [done|].
  destruct (validatePaths w [cwd w]) as [path|] eqn:Hv; [|done].
  destruct (ensureLink w _ path _) as [|p o] eqn:Hl; [done|].
  injection H as -> -> <-. by exists argv, scope, path.
Qed.

Lemma run_linked w c project org tm :
  linking w = Some (project, org, tm) ->
  run w c = after_choice w (answer w project org tm c)
                           (asked w project org tm c).
Proof.
  intros (argv & scope & path & Ha & Hh & Hs & Ht & Hv & Hl)%linking_inv.
  unfold run, open. rewrite Ha, Hh, Hs, Hv, Hl, Ht.
  erewrite bind_val; [| apply choose_eq]. reflexivity.
Qed.

Lemma chosen_linked w c project org tm :
  linking w = Some (project, org, tm) ->
  chosen w c = Some (answer w project org tm c).
Proof. intros H. unfold chosen. by rewrite H, choose_eq. Qed.

Lemma shown_linked w c project org tm :
  linking w = Some (project, org, tm) ->
  shown w c = Some (choices w project org tm (start c)).
Proof.
  intros H. unfold shown. rewrite H, choose_eq. cbn [snd st_emit trace].
  by rewrite last_snoc.
Qed.

Lemma chosen_inv w c choice :
  chosen w c = Some choice ->
  exists project org tm,
    linking w = Some (project, org, tm) /\
    choice = answer w project org tm c.
Proof.
  unfold chosen. destruct (linking w) as [[[project org] tm]|] eqn:H; [|done].
  rewrite choose_eq. intros [= <-]. by exists project, org, tm.
Qed.

Lemma answer_events_quiet t url r : Forall quiet (answer_events t url r).
Proof. destruct r; repeat constructor. Qed.

Lemma asked_quiet w project org tm c :
  Forall quiet (trace (asked w project org tm c)).
Proof.
  unfold asked, st_emit. cbn [trace]. rewrite trace_st3. cbn [start trace].
  repeat (apply Forall_app; split);
    auto using answer_events_quiet; repeat constructor.
Qed.

Lemma quiet_no_launch l file args : Forall quiet l -> EExeca file args ∉ l.
Proof.
  intros H Hin. rewrite Forall_forall in H. by apply (H _ Hin).
Qed.

Lemma quiet_no_log l msg : Forall quiet l -> ELog msg ∉ l.
Proof.
  intros H Hin. rewrite Forall_forall in H. by apply (H _ Hin).
Qed.

(** C3: when the list prompt returns the empty string, the command returns
    0; the launcher has not been invoked and no line has been printed with
    [output.log], the confirmation line in particular. *)
Theorem C3_abort_returns_0_without_launch (w : World) (c : Config) :
  chosen w c = Some "" ->
  exists st',
    run w c = (Val 0, st') /\
    (exists choices, last (trace st') = Some (EPrompt question choices)) /\
    (forall file args, EExeca file args ∉ trace st') /\
    (forall msg, ELog msg ∉ trace st').
Proof.
  intros (project & org & tm & Hl & Hc)%chosen_inv.
  exists (asked w project org tm c). split; [|split; [|split]].
  - rewrite (run_linked _ _ _ _ _ Hl), after_choice_eq, <- Hc. reflexivity.
  - eexists. unfold asked, st_emit. cbn [trace]. apply last_snoc.
  - intros. apply quiet_no_launch, asked_quiet.
  - intros. apply quiet_no_log, asked_quiet.
Qed.

Lemma C3_witness :
  exists st',
    run (Sample.world (Val Sample.deployed) (fun _ => "")) ∅ = (Val 0, st') /\
    (exists choices, last (trace st') = Some (EPrompt question choices)) /\
    (forall file args, EExeca file args ∉ trace st') /\
    (forall msg, ELog msg ∉ trace st').
Proof.
  apply (C3_abort_returns_0_without_launch
           (Sample.world (Val Sample.deployed) (fun _ => "")) ∅).
  reflexivity.
Defined.

(** C8: when the list prompt returns a value that is neither [not_found]
    nor the empty string, the command invokes [open] with that value as its
    only argument, once, then prints the one line [Opened ...] built from
    the value, and returns 0.  Nothing is read back from the launcher. *)
Theorem C8_choice_is_opened (w : World) (c : Config) (choice : string) :
  chosen w c = Some choice ->
  choice <> "not_found" ->
  choice <> "" ->
  exists st1,
    run w c =
      (Val 0, st_emit (ELog ("🪄 Opened " +:+ link w choice))
                (st_emit (EExeca "open" [choice]) st1)) /\
    (forall file args, EExeca file args ∉ trace st1) /\
    (forall msg, ELog msg ∉ trace st1) /\
    (forall pre post, link w choice = pre +:+ choice +:+ post ->
       exists pre', "🪄 Opened " +:+ link w choice =
                    pre' +:+ choice +:+ post).
Proof.
  intros (project & org & tm & Hl & Hc)%chosen_inv Hnf He.
  exists (asked w project org tm c). split; [|split; [|split]].
  - rewrite (run_linked _ _ _ _ _ Hl), after_choice_eq, <- Hc.
    unfold not_found. by rewrite !bool_decide_eq_false_2.
  - intros. apply quiet_no_launch, asked_quiet.
  - intros. apply quiet_no_log, asked_quiet.
  - intros pre post ->. by exists ("🪄 Opened " +:+ pre).
Qed.

Lemma C8_witness :
  exists st1,
    run (Sample.world (Val Sample.deployed) (Sample.nth_value 2)) ∅ =
      (Val 0, st_emit (ELog "🪄 Opened https://site-abc123.vercel.app")
                (st_emit (EExeca "open" ["https://site-abc123.vercel.app"])
                   st1)) /\
    (forall file args, EExeca file args ∉ trace st1) /\
    (forall msg, ELog msg ∉ trace st1).
Proof.
  destruct (C8_choice_is_opened
              (Sample.world (Val Sample.deployed) (Sample.nth_value 2)) ∅
              "https://site-abc123.vercel.app")
    as (st1 & H1 & H2 & H3 & _); [reflexivity | done | done |].
  by exists st1.
Defined.

(** C6: when scope resolution throws an error whose code is
    [NOT_AUTHORIZED] or [TEAM_DELETED], the command writes the message of
    the error with [output.error] and returns 1; an error with any other
    code, or with none, is thrown again as it is. *)
Theorem C6_scope_errors (w : World) (c : Config) (argv : Argv) (err : Err) :
  getArgs w = Val argv ->
  flag (arg_help argv) = false ->
  getScope w = Thrown err ->
  (err_code err = Some "NOT_AUTHORIZED" \/ err_code err = Some "TEAM_DELETED"
   -> run w c = (Val 1, st_emit (EError (err_message err)) (start c)))
  /\
  (err_code err <> Some "NOT_AUTHORIZED" ->
   err_code err <> Some "TEAM_DELETED" ->
   run w c = (Thrown err, start c)).
Proof.
  intros Ha Hh Hs. unfold run, open. rewrite Ha, Hh, Hs.
  unfold scope_error_is_known. split.
  - intros [H|H]; rewrite H; reflexivity.
  - intros H1 H2. by rewrite !bool_decide_eq_false_2.
Qed.

Lemma C6_witness :
  run (Sample.denied Sample.unauthorized) ∅ =
    (Val 1, st_emit (EError "Not authorized") (start ∅))
  /\ run (Sample.denied Sample.offline) ∅ = (Thrown Sample.offline, start ∅).
Proof.
  split.
  - apply (C6_scope_errors (Sample.denied Sample.unauthorized) ∅
             {| arg_help := None; arg_yes := Some true |} Sample.unauthorized
             eq_refl eq_refl eq_refl).
    by left.
  - by apply (C6_scope_errors (Sample.denied Sample.offline) ∅
                {| arg_help := None; arg_yes := Some true |} Sample.offline
                eq_refl eq_refl eq_refl).
Defined.

(** C7: for every linked org and project the value of the Dashboard entry
    is [https://vercel.com/{org.slug}/{project.name}]; it is a function of
    the org and the project alone, whatever the three requests give; it is
    never [not_found] (nor empty); and choosing it launches it and returns
    0. *)
Theorem C7_dashboard_always_offered
    (w : World) (c : Config) (project : Project) (org : Org)
    (tm : option Team) :
  linking w = Some (project, org, tm) ->
  let dashboardUrl :=
    "https://vercel.com/" +:+ org_slug org +:+ "/" +:+ proj_name project in
  getDashboardUrl org project = dashboardUrl
  /\ dashboardUrl <> "not_found"
  /\ dashboardUrl <> ""
  /\ (exists rest,
        shown w c = Some ({| ch_name := "Dashboard";
                             ch_value := dashboardUrl;
                             ch_short := "Dashboard" |} :: rest))
  /\ (chosen w c = Some dashboardUrl ->
      exists st1,
        run w c =
          (Val 0, st_emit (ELog (opened_message w dashboardUrl))
                    (st_emit (EExeca "open" [dashboardUrl]) st1)) /\
        (forall file args, EExeca file args ∉ trace st1)).
Proof.
  intros Hl dashboardUrl. split; [reflexivity|].
  split; [done|]. split; [done|]. split.
  - rewrite (shown_linked _ _ _ _ _ Hl). eexists. reflexivity.
  - intros Hc. exists (asked w project org tm c). split.
    + rewrite (chosen_linked _ _ _ _ _ Hl) in Hc. injection Hc as Hc.
      rewrite (run_linked _ _ _ _ _ Hl), after_choice_eq, Hc.
      reflexivity.
    + intros. apply quiet_no_launch, asked_quiet.
Qed.

Lemma C7_witness :
  shown Sample.unreachable ∅ =
    Some (menu "https://vercel.com/acme/site" None None None)
  /\ (run Sample.unreachable ∅).1 = Val 0.
Proof.
  destruct (C7_dashboard_always_offered Sample.unreachable ∅
              Sample.site Sample.acme Sample.crew eq_refl)
    as (_ & _ & _ & _ & H).
  destruct (H eq_refl) as (st1 & -> & _). split; reflexivity.
Defined.

(** C9: on every run that gets a linked project, the command writes
    [client.config.currentTeam] before it makes any request: the field is
    [org.id] when [org.type] is [team] and [undefined] otherwise, whatever
    it was before; each of the three requests is made with that value in
    place; and every other field of [client.config] is left as it was. *)
Theorem C9_current_team_written_before_fetch
    (w : World) (c : Config) (project : Project) (org : Org)
    (tm : option Team) :
  linking w = Some (project, org, tm) ->
  let v := if bool_decide (org_type org = "team") then Some (org_id org)
           else None in
  let st' := (run w c).2 in
  config st' !! "currentTeam" = Some v
  /\ (forall k, k <> "currentTeam" -> config st' !! k = c !! k)
  /\ (forall t url, EFetch t url ∈ trace st' -> t = Some v)
  /\ fetches st' = 3%nat
  /\ (forall n, (n < 3)%nat ->
        request w project org tm (start c) n =
        fetch w n (<["currentTeam" := v]> c) (projectUrl w project tm)).
Proof.
  intros Hl v st'.
  assert (Hc : config st' = <["currentTeam" := v]> c).
  { unfold st'. rewrite (run_linked _ _ _ _ _ Hl), after_choice_eq.
    by repeat case_bool_decide. }
  assert (Ht : exists tail,
             trace st' = trace (asked w project org tm c) ++ tail /\
             forall t url, EFetch t url ∉ tail).
  { unfold st'. rewrite (run_linked _ _ _ _ _ Hl), after_choice_eq.
    repeat case_bool_decide; cbn [snd st_emit trace].
    - eexists; split; [reflexivity|]. intros t url.
      rewrite list_elem_of_singleton. done.
    - exists []. split; [by rewrite app_nil_r|]. intros t url.
      apply not_elem_of_nil.
    - rewrite <- app_assoc. eexists; split; [reflexivity|]. intros t url.
      cbn. rewrite !elem_of_cons, elem_of_nil. intuition congruence. }
  split; [by rewrite Hc, lookup_insert_eq|].
  split; [by intros k Hk; rewrite Hc, lookup_insert_ne|].
  split; [|split].
  - destruct Ht as (tail & -> & Htail). intros t url.
    rewrite elem_of_app. intros [H|H]; [|by destruct (Htail t url)].
    revert H. unfold asked, st_emit. cbn [trace]. rewrite trace_st3.
    cbn [start trace app]. unfold answer_events, currentTeamOf. fold v.
    rewrite !elem_of_app, !elem_of_cons.
    repeat (destruct (request _ _ _ _ _ _));
      rewrite ?elem_of_cons, ?elem_of_nil; intuition congruence.
  - unfold st'. rewrite (run_linked _ _ _ _ _ Hl), after_choice_eq.
    by repeat case_bool_decide.
  - intros n Hn. unfold request. cbn [start fetches st0 st_set config].
    by rewrite Nat.add_0_r.
Qed.

Lemma C9_witness :
  config (run (Sample.world (Val Sample.deployed) (Sample.nth_value 0))
              Sample.settings).2 !! "currentTeam" = Some (Some "team_1")
  /\ config (run (Sample.world (Val Sample.deployed) (Sample.nth_value 0))
                 Sample.settings).2 !! "token" = Some (Some "t")
  /\ fetches (run (Sample.world (Val Sample.deployed) (Sample.nth_value 0))
                  Sample.settings).2 = 3%nat.
Proof.
  destruct (C9_current_team_written_before_fetch
              (Sample.world (Val Sample.deployed) (Sample.nth_value 0))
              Sample.settings Sample.site Sample.acme Sample.crew
              eq_refl) as (H1 & H2 & _ & H4 & _).
  split; [exact H1|]. split; [|exact H4].
  etransitivity; [apply (H2 "token"); done | reflexivity].
Defined.

(* ===================================================================== *)
(** ** Failed requests *)
(* ===================================================================== *)

Lemma failed_answer_logged t url e :
  EError (err_message e) ∈ answer_events t url (Thrown e).
Proof. unfold answer_events. rewrite !elem_of_cons. auto. Qed.

Lemma failed_request_logged w project org tm c n e :
  (n < 3)%nat ->
  request w project org tm (start c) n = Thrown e ->
  EError (err_message e) ∈ trace (asked w project org tm c).
Proof.
  intros Hn Hr. unfold asked, st_emit. cbn [trace]. rewrite trace_st3.
  cbn [start trace app]. rewrite !elem_of_app.
  destruct n as [|[|[|n]]]; [| | |lia]; rewrite Hr;
    auto 8 using failed_answer_logged.
Qed.

Lemma failed_request_not_found w project org tm c n e :
  (n < 3)%nat ->
  request w project org tm (start c) n = Thrown e ->
  ch_value <$> choices w project org tm (start c) !! S n = Some not_found.
Proof.
  intros Hn Hr. unfold choices.
  destruct n as [|[|[|n]]]; [| | |lia]; by rewrite Hr.
Qed.

Lemma trace_after_choice w choice st :
  exists tail, trace (after_choice w choice st).2 = trace st ++ tail.
Proof.
  rewrite after_choice_eq. repeat case_bool_decide; cbn [snd st_emit trace].
  - by eexists.
  - exists []. by rewrite app_nil_r.
  - rewrite <- app_assoc. by eexists.
Qed.

Lemma after_choice_code w choice st :
  exists code,
    (after_choice w choice st).1 = Val code /\
    (code = 0 \/ code = 1) /\
    (code = 1 <-> choice = not_found).
Proof.
  rewrite after_choice_eq. repeat case_bool_decide; cbn [fst].
  - exists 1. split; [done|]. split; [by right|]. done.
  - exists 0. split; [done|]. split; [by left|]. split; [lia | done].
  - exists 0. split; [done|]. split; [by left|]. split; [lia | done].
Qed.

(** C4: when the request [GET /v9/projects/:name] throws, the error is
    caught and its message is written with [output.error]; [getProject]
    returns [undefined], and so do the three URL helpers built on it.  The
    command goes on: it is not thrown again, the entry of the failed lookup
    carries [not_found], the menu is shown, and the command returns 0 or 1,
    where 1 only comes from choosing a [not_found] entry. *)
Theorem C4_fetch_error_is_downgraded
    (w : World) (project : Project) (org : Org) (tm : option Team)
    (st : State) (e : Err) :
  fetch w (fetches st) (config st) (projectUrl w project tm) = Thrown e ->
  let st' := st_emit (EError (err_message e))
               (st_fetch (projectUrl w project tm) st) in
  getProject w project tm st = (Val None, st')
  /\ getInspectorUrl w project org tm st = (Val None, st')
  /\ getLatestDeploymentUrl w project tm st = (Val None, st')
  /\ getLatestProdDeployment w project tm st = (Val None, st')
  /\ (forall c n e',
        linking w = Some (project, org, tm) ->
        (n < 3)%nat ->
        request w project org tm (start c) n = Thrown e' ->
        exists code st'' choices,
          run w c = (Val code, st'') /\
          EError (err_message e') ∈ trace st'' /\
          EPrompt question choices ∈ trace st'' /\
          ch_value <$> choices !! S n = Some not_found /\
          (code = 0 \/ code = 1) /\
          (code = 1 <-> chosen w c = Some not_found)).
Proof.
  intros Hf st'.
  assert (Hs : answer_state (projectUrl w project tm) (Thrown e) st = st').
  { unfold st', answer_state, st_emit, st_fetch. cbn.
    by rewrite <- app_assoc. }
  split; [|split; [|split; [|split]]].
  - by rewrite getProject_eq; cbn zeta; rewrite Hf, Hs.
  - by rewrite getInspectorUrl_eq; cbn zeta; rewrite Hf, Hs.
  - unfold getLatestDeploymentUrl.
    by rewrite helper_eq; cbn zeta; rewrite Hf, Hs.
  - unfold getLatestProdDeployment.
    by rewrite helper_eq; cbn zeta; rewrite Hf, Hs.
  - intros c n e' Hl Hn Hr.
    pose proof (failed_request_logged _ _ _ _ _ _ _ Hn Hr) as Hlog.
    pose proof (failed_request_not_found _ _ _ _ _ _ _ Hn Hr) as Hnf.
    set (ch := answer w project org tm c).
    set (s := asked w project org tm c) in *.
    destruct (after_choice_code w ch s) as (code & Hcode & H01 & H1).
    destruct (trace_after_choice w ch s) as (tail & Htail).
    exists code, (after_choice w ch s).2, (choices w project org tm (start c)).
    rewrite (run_linked _ _ _ _ _ Hl), (chosen_linked _ _ _ _ _ Hl).
    fold ch s. split; [|split; [|split; [|split; [|split]]]].
    + destruct (after_choice w ch s) as [r s']. cbn in Hcode. by subst r.
    + rewrite Htail, elem_of_app. by left.
    + rewrite Htail, elem_of_app. left. unfold s, asked, st_emit.
      cbn [trace]. rewrite elem_of_app, list_elem_of_singleton. by right.
    + exact Hnf.
    + exact H01.
    + rewrite H1. split; [by intros -> | by intros [= ->]].
Qed.

Lemma C4_witness :
  getProject Sample.unreachable Sample.site Sample.crew (start ∅) =
    (Val None,
     st_emit (EError "getaddrinfo ENOTFOUND")
       (st_fetch "/v9/projects/site?teamId=team_1" (start ∅)))
  /\ exists code st'',
       run Sample.unreachable ∅ = (Val code, st'') /\
       EError "getaddrinfo ENOTFOUND" ∈ trace st'' /\
       (code = 1 <-> chosen Sample.unreachable ∅ = Some not_found).
Proof.
  destruct (C4_fetch_error_is_downgraded Sample.unreachable Sample.site
              Sample.acme Sample.crew (start ∅) Sample.offline eq_refl)
    as (H1 & _ & _ & _ & H5).
  split; [exact H1|].
  destruct (H5 ∅ 0%nat Sample.offline eq_refl ltac:(lia) eq_refl)
    as (code & st'' & choices & Hrun & Hlog & _ & _ & _ & Hcode).
  by exists code, st''.
Defined.

(* ===================================================================== *)
(** ** Exit codes *)
(* ===================================================================== *)





(* ===================================================================== *)
(** ** A project without deployments *)
(* ===================================================================== *)

(** Where no request finds a latest deployment id, a latest deployment
    url or a production target, the three entries carry [not_found], and
    choosing one of them prints the message and returns 1. *)
Lemma no_deployments_not_found w c project org tm :
  linking w = Some (project, org, tm) ->
  (forall p, request w project org tm (start c) 0 = Val p ->
             latestDeploymentId p = None) ->
  (forall p, request w project org tm (start c) 1 = Val p ->
             latestDeploymentUrl p = None) ->
  (forall p, request w project org tm (start c) 2 = Val p ->
             targets p ≫= production = None) ->
  shown w c =
    Some (menu (getDashboardUrl org project) None None None)
  /\ (chosen w c = Some not_found ->
      run w c = (Val 1, st_emit (ELog (no_deployments_message w))
                          (asked w project org tm c))).
Proof.
  unfold latestDeploymentId, latestDeploymentUrl.
  intros Hl H0 H1 H2. split.
  - rewrite (shown_linked _ _ _ _ _ Hl). unfold choices.
    destruct (request _ _ _ _ _ 0) as [p0|];
      destruct (request _ _ _ _ _ 1) as [p1|];
      destruct (request _ _ _ _ _ 2) as [p2|];
      cbn [answer_value mbind option_bind];
      rewrite ?inspectorUrlOf_id; unfold latestDeploymentUrlOf,
        latestProdDeploymentOf;
      rewrite ?(H0 _ eq_refl), ?(H1 _ eq_refl), ?(H2 _ eq_refl); reflexivity.
  - rewrite (chosen_linked _ _ _ _ _ Hl). intros [= Hc].
    by rewrite (run_linked _ _ _ _ _ Hl), after_choice_eq, Hc.
Qed.

Lemma bare_world_trace :
  trace (run bare_world ∅).2 =
  [ EFetch (Some (Some "team_1")) "/v9/projects/site?teamId=team_1";
    EFetch (Some (Some "team_1")) "/v9/projects/site?teamId=team_1";
    EFetch (Some (Some "team_1")) "/v9/projects/site?teamId=team_1";
    EPrompt question
      (menu "https://vercel.com/acme/site" None None
            (Some "https://undefined"));
    EExeca "open" ["https://undefined"];
    ELog "🪄 Opened https://undefined" ].
Proof. reflexivity. Qed.

(** C1, on the code: a fetched record without latest deployments whose
    production target carries no [url] has no latest deployment id, no
    latest deployment url and no production target url; yet the Latest
    Production Deployment entry carries [https://undefined], and choosing
    it launches that address and returns 0. *)
Theorem C1_production_target_without_url :
  latestDeploymentId Sample.bare_target = None
  /\ latestDeploymentUrl Sample.bare_target = None
  /\ productionTargetUrl Sample.bare_target = None
  /\ shown_values bare_world ∅ =
       Some ["https://vercel.com/acme/site"; "not_found"; "not_found";
             "https://undefined"]
  /\ chosen bare_world ∅ = Some "https://undefined"
  /\ (run bare_world ∅).1 = Val 0
  /\ last (trace (run bare_world ∅).2) =
       Some (ELog "🪄 Opened https://undefined")
  /\ EExeca "open" ["https://undefined"] ∈ trace (run bare_world ∅).2
  /\ (forall msg, ELog msg ∈ trace (run bare_world ∅).2 ->
        msg <> no_deployments_message bare_world).
Proof.
  rewrite bare_world_trace. repeat split; try reflexivity.
  - rewrite !elem_of_cons. auto 8.
  - intros msg. rewrite !elem_of_cons, elem_of_nil.
    intros [H|[H|[H|[H|[H|[H|H]]]]]]; try discriminate H; [|done].
    injection H as ->. discriminate.
Qed.

(* ===================================================================== *)
(** ** Runs that stop before the project is linked *)
(* ===================================================================== *)

Lemma emit_ret {A} (e : Event) (a : A) st :
  (emit e ≫= fun _ => mret a) st = (Val a, st_emit e st).
Proof. reflexivity. Qed.

Lemma ret_eq {A} (a : A) (st : State) : (mret a : M A) st = (Val a, st).
Proof. reflexivity. Qed.

(** X1: a run that does not get a linked project (failed argument
    parsing, [--help], a scope error, a refused path, an exit code from
    project linking) leaves [client.config] as it was, makes no request,
    shows no menu and launches nothing: its trace holds at most one event,
    which is [handleError], [help] or [output.error]. *)
Theorem X1_early_exit_changes_nothing (w : World) (c : Config) :
  linking w = None ->
  config (run w c).2 = c
  /\ fetches (run w c).2 = 0%nat
  /\ (length (trace (run w c).2) <= 1)%nat
  /\ (forall e, e ∈ trace (run w c).2 ->
        (exists err, e = EHandleError err) \/ e = EHelp \/
        (exists msg, e = EError msg)).
Proof.
  assert (Hone : forall (code : Z) e,
            ((exists err, e = EHandleError err) \/ e = EHelp \/
             (exists msg, e = EError msg)) ->
            config (Val code, st_emit e (start c)).2 = c
            /\ fetches (Val code, st_emit e (start c)).2 = 0%nat
            /\ (length (trace (Val code, st_emit e (start c)).2) <= 1)%nat
            /\ (forall e', e' ∈ trace (Val code, st_emit e (start c)).2 ->
                  (exists err, e' = EHandleError err) \/ e' = EHelp \/
                  (exists msg, e' = EError msg))).
  { intros code e He. cbn. repeat split; [lia|].
    by intros e' ->%list_elem_of_singleton. }
  assert (Hnone : forall (r : Res Z),
            config (r, start c).2 = c
            /\ fetches (r, start c).2 = 0%nat
            /\ (length (trace (r, start c).2) <= 1)%nat
            /\ (forall e', e' ∈ trace (r, start c).2 ->
                  (exists err, e' = EHandleError err) \/ e' = EHelp \/
                  (exists msg, e' = EError msg))).
  { intros r. cbn. repeat split; [lia|]. by intros e' ?%elem_of_nil. }
  unfold linking, run, open.
  destruct (getArgs w) as [argv|err].
  2:{ intros _. rewrite emit_ret. apply Hone. eauto. }
  destruct (flag (arg_help argv)).
  { intros _. rewrite emit_ret. apply Hone. eauto. }
  destruct (getScope w) as [scope|err].
  2:{ intros _. destruct (scope_error_is_known err).
      - rewrite emit_ret. apply Hone. eauto.
      - apply Hnone. }
  destruct (validatePaths w [cwd w]) as [path|exitCode].
  2:{ intros _. rewrite ret_eq. apply Hnone. }
  destruct (ensureLink w _ path _) as [code|project org]; [|done].
  intros _. rewrite ret_eq. apply Hnone.
Qed.

Lemma X1_witness :
  config (run refused Sample.settings).2 = Sample.settings
  /\ fetches (run refused Sample.settings).2 = 0%nat
  /\ (length (trace (run refused Sample.settings).2) <= 1)%nat.
Proof.
  destruct (X1_early_exit_changes_nothing refused Sample.settings eq_refl)
    as (H1 & H2 & H3 & _).
  by repeat split.
Defined.

(* ===================================================================== *)
(** ** The helpers, one by one *)
(* ===================================================================== *)

Lemma getLatestDeploymentUrl_eq w project tm st :
  getLatestDeploymentUrl w project tm st =
  let url := projectUrl w project tm in
  let r := fetch w (fetches st) (config st) url in
  (Val (answer_value r ≫= latestDeploymentUrlOf), answer_state url r st).
Proof. apply helper_eq. Qed.

Lemma getLatestProdDeployment_eq w project tm st :
  getLatestProdDeployment w project tm st =
  let url := projectUrl w project tm in
  let r := fetch w (fetches st) (config st) url in
  (Val (answer_value r ≫= latestProdDeploymentOf), answer_state url r st).
Proof. apply helper_eq. Qed.

(** X4: [getLatestDeploymentUrl] looks at the first latest deployment and
    at no other.  It returns [https://] followed by the url of that
    deployment when the url is there and not empty; it returns [undefined]
    when the record has no list, when the list is empty, and when the first
    deployment has no url or an empty one, whatever the later deployments
    carry. *)
Theorem X4_preview_url_is_first_deployment
    (w : World) (project : Project) (tm : option Team) (st : State)
    (proj : Project) :
  fetch w (fetches st) (config st) (projectUrl w project tm) = Val proj ->
  (latestDeployments proj = None ->
     (getLatestDeploymentUrl w project tm st).1 = Val None)
  /\ (latestDeployments proj = Some [] ->
     (getLatestDeploymentUrl w project tm st).1 = Val None)
  /\ (forall d rest,
        latestDeployments proj = Some (d :: rest) ->
        dep_url d = None \/ dep_url d = Some "" ->
        (getLatestDeploymentUrl w project tm st).1 = Val None)
  /\ (forall d rest url,
        latestDeployments proj = Some (d :: rest) ->
        dep_url d = Some url -> url <> "" ->
        (getLatestDeploymentUrl w project tm st).1 =
          Val (Some ("https://" +:+ url))).
Proof.
  intros Hf. rewrite getLatestDeploymentUrl_eq. cbn zeta. rewrite Hf.
  cbn [fst answer_value mbind option_bind].
  unfold latestDeploymentUrlOf, firstDeployment.
  split; [|split; [|split]].
  - by intros ->.
  - by intros ->.
  - intros d rest -> [H|H]; cbn [mbind option_bind head]; by rewrite H.
  - intros d rest url -> H Hu. cbn [mbind option_bind head]. rewrite H.
    by destruct url.
Qed.

Lemma X4_witness :
  (getLatestDeploymentUrl
     (Sample.world (Val second_only) (Sample.nth_value 2))
     Sample.site Sample.crew (start ∅)).1 = Val None.
Proof.
  destruct (X4_preview_url_is_first_deployment
              (Sample.world (Val second_only) (Sample.nth_value 2))
              Sample.site Sample.crew (start ∅) second_only eq_refl)
    as (_ & _ & H & _).
  apply (H {| dep_id := Some "dpl_new"; dep_url := None |} [Sample.preview]);
    [reflexivity | by left].
Defined.

(** X5: [getLatestProdDeployment] returns an address exactly when the
    fetched record has a production target, whether that target carries a
    url or not, and never looks at the latest deployments.  The address
    starts with [https://]; it is [https://] followed by the url when the
    url is a string, so [https://] alone for the empty one.  Without
    [targets] or without [targets.production] the helper returns
    [undefined]. *)
Theorem X5_production_url_iff_target
    (w : World) (project : Project) (tm : option Team) (st : State)
    (proj : Project) :
  fetch w (fetches st) (config st) (projectUrl w project tm) = Val proj ->
  (targets proj = None ->
     (getLatestProdDeployment w project tm st).1 = Val None)
  /\ (targets proj = Some {| production := None |} ->
     (getLatestProdDeployment w project tm st).1 = Val None)
  /\ (forall prod url,
        targets proj = Some {| production := Some prod |} ->
        dep_url prod = Some url ->
        (getLatestProdDeployment w project tm st).1 =
          Val (Some ("https://" +:+ url)))
  /\ (forall prod,
        targets proj = Some {| production := Some prod |} ->
        exists u,
          (getLatestProdDeployment w project tm st).1 = Val (Some u) /\
          https u)
  /\ (forall u,
        (getLatestProdDeployment w project tm st).1 = Val (Some u) ->
        exists prod, targets proj = Some {| production := Some prod |}).
Proof.
  intros Hf. rewrite getLatestProdDeployment_eq. cbn zeta. rewrite Hf.
  cbn [fst answer_value mbind option_bind].
  split; [|split; [|split; [|split]]].
  - unfold latestProdDeploymentOf. by intros ->.
  - unfold latestProdDeploymentOf. by intros ->.
  - unfold latestProdDeploymentOf. intros prod url -> H.
    cbn [mbind option_bind production]. by rewrite H.
  - unfold latestProdDeploymentOf. intros prod ->.
    cbn [mbind option_bind production]. eexists. split; [reflexivity|].
    apply JsFacts.prefix_app.
  - intros u [= Hu]. unfold latestProdDeploymentOf in Hu.
    destruct (targets proj) as [[[prod|]]|]; try discriminate Hu.
    by exists prod.
Qed.

Lemma X5_witness :
  (getLatestProdDeployment
     (Sample.world (Val Sample.deployed) (Sample.nth_value 3))
     Sample.site Sample.crew (start ∅)).1 =
  Val (Some "https://site.vercel.app").
Proof.
  destruct (X5_production_url_iff_target
              (Sample.world (Val Sample.deployed) (Sample.nth_value 3))
              Sample.site Sample.crew (start ∅) Sample.deployed eq_refl)
    as (_ & _ & H & _).
  apply (H Sample.live "site.vercel.app"); reflexivity.
Defined.

(** X6: for every id of the form [dpl_X], [getInspectorUrl] returns
    [https://vercel.com/{org.slug}/{project.name}/X], with the slug of the
    linked org and the name of the linked project (not those of the
    fetched record), and [undefined] when [X] is empty; later occurrences
    of [dpl_] inside [X] stay. *)
Theorem X6_inspector_url_strips_prefix
    (w : World) (project : Project) (org : Org) (tm : option Team)
    (st : State) (proj : Project) (d : Deployment) (rest : list Deployment)
    (x : string) :
  fetch w (fetches st) (config st) (projectUrl w project tm) = Val proj ->
  latestDeployments proj = Some (d :: rest) ->
  dep_id d = Some ("dpl_" +:+ x) ->
  (getInspectorUrl w project org tm st).1 =
  Val (if Js.truthy x
       then Some ("https://vercel.com/" +:+ org_slug org +:+ "/" +:+
                  proj_name project +:+ "/" +:+ x)
       else None).
Proof.
  intros Hf Hl Hid. rewrite getInspectorUrl_eq. cbn zeta. rewrite Hf.
  cbn [fst answer_value mbind option_bind]. rewrite inspectorUrlOf_id.
  unfold firstDeployment. rewrite Hl. cbn [mbind option_bind head].
  rewrite Hid. cbn zeta.
  change ("dpl_" +:+ x) with ("" +:+ "dpl_" +:+ x).
  rewrite JsFacts.replace_first; [reflexivity|].
  intros a' b' _. cbn. lia.
Qed.

Lemma X6_witness :
  (getInspectorUrl
     (Sample.world (Val Sample.deployed) (Sample.nth_value 1))
     Sample.site Sample.acme Sample.crew (start ∅)).1 =
  Val (Some "https://vercel.com/acme/site/abc123").
Proof.
  apply (X6_inspector_url_strips_prefix
           (Sample.world (Val Sample.deployed) (Sample.nth_value 1))
           Sample.site Sample.acme Sample.crew (start ∅)
           Sample.deployed Sample.preview [] "abc123");
    reflexivity.
Defined.

(* ===================================================================== *)
(** ** The menu *)
(* ===================================================================== *)

Lemma https_not_sentinel u : https u -> u <> "" /\ u <> "not_found".
Proof. unfold https. split; intros ->; discriminate. Qed.

Lemma https_truthy u : https u -> Js.truthy u = true.
Proof. intros [H _]%https_not_sentinel. by destruct u. Qed.

Lemma inspectorUrlOf_https org project proj u :
  inspectorUrlOf org project proj = Some u -> https u.
Proof.
  unfold inspectorUrlOf.
  destruct (Js.replace "dpl_" "" <$> _) as [dpl|]; [|done].
  destruct (Js.truthy dpl); [|done]. by intros [= <-].
Qed.

Lemma latestDeploymentUrlOf_https proj u :
  latestDeploymentUrlOf proj = Some u -> https u.
Proof.
  unfold latestDeploymentUrlOf.
  destruct (firstDeployment proj ≫= dep_url) as [url|]; [|done].
  destruct (Js.truthy url); [|done]. intros [= <-].
  apply JsFacts.prefix_app.
Qed.

Lemma latestProdDeploymentOf_https proj u :
  latestProdDeploymentOf proj = Some u -> https u.
Proof.
  unfold latestProdDeploymentOf.
  destruct (targets proj ≫= production) as [prod|]; [|done].
  intros [= <-]. apply JsFacts.prefix_app.
Qed.

(** The value of an entry whose lookup gave [found]. *)
Lemma or_else_https found :
  (forall u, found = Some u -> https u) ->
  (found = None /\ Js.or_else found not_found = not_found) \/
  (exists u, found = Some u /\ https u /\ Js.or_else found not_found = u).
Proof.
  intros H. destruct found as [u|]; [right | by left].
  exists u. pose proof (H u eq_refl) as Hu.
  cbn. by rewrite https_truthy.
Qed.

Lemma choices_values w project org tm st :
  let found0 :=
    answer_value (request w project org tm st 0)
      ≫= inspectorUrlOf org project in
  let found1 :=
    answer_value (request w project org tm st 1) ≫= latestDeploymentUrlOf in
  let found2 :=
    answer_value (request w project org tm st 2) ≫= latestProdDeploymentOf in
  ch_value <$> choices w project org tm st =
    [ getDashboardUrl org project; Js.or_else found0 not_found;
      Js.or_else found1 not_found; Js.or_else found2 not_found ]
  /\ (forall u, found0 = Some u -> https u)
  /\ (forall u, found1 = Some u -> https u)
  /\ (forall u, found2 = Some u -> https u).
Proof.
  cbn zeta. split; [reflexivity|]. split; [|split]; intros u.
  - destruct (answer_value _) as [p|]; [|done].
    apply inspectorUrlOf_https.
  - destruct (answer_value _) as [p|]; [|done].
    apply latestDeploymentUrlOf_https.
  - destruct (answer_value _) as [p|]; [|done].
    apply latestProdDeploymentOf_https.
Qed.

Lemma choices_sound w project org tm st v :
  v ∈ ch_value <$> choices w project org tm st ->
  v <> "" /\ (v = "not_found" \/ https v).
Proof.
  destruct (choices_values w project org tm st) as (-> & H0 & H1 & H2).
  assert (Hor : forall found,
            (forall u, found = Some u -> https u) ->
            Js.or_else found not_found <> "" /\
            (Js.or_else found not_found = "not_found" \/
             https (Js.or_else found not_found))).
  { intros found [[_ ->]|(u & _ & Hu & ->)]%or_else_https.
    - split; [done | by left].
    - split; [by apply https_not_sentinel | by right]. }
  rewrite !elem_of_cons, elem_of_nil.
  intros [->|[->|[->|[->|[]]]]]; auto.
  split; [done | by right].
Qed.

(** X7: whatever the three requests give, the menu of a run that gets a
    linked project has four entries, named Dashboard, Latest Deployment
    Inspector, Latest Preview Deployment and Latest Production Deployment
    in this order; no entry has the empty value, which is the answer of an
    aborted prompt, and every value is either [not_found] or an address
    that starts with [https://]. *)
Theorem X7_menu_has_four_sound_entries
    (w : World) (c : Config) (project : Project) (org : Org)
    (tm : option Team) :
  linking w = Some (project, org, tm) ->
  exists chs,
    shown w c = Some chs
    /\ ch_name <$> chs =
         [ "Dashboard"; "Latest Deployment Inspector";
           "Latest Preview Deployment"; "Latest Production Deployment" ]
    /\ ch_short <$> chs =
         [ "Dashboard"; "Deployment Inspector";
           "Latest Preview Deployment"; "Latest Production Deployment" ]
    /\ (forall v, v ∈ ch_value <$> chs ->
          v <> "" /\ (v = "not_found" \/ https v)).
Proof.
  intros Hl. exists (choices w project org tm (start c)).
  split; [by apply shown_linked|]. split; [reflexivity|].
  split; [reflexivity|]. apply choices_sound.
Qed.

Lemma X7_witness :
  exists chs,
    shown Sample.unreachable ∅ = Some chs
    /\ ch_name <$> chs =
         [ "Dashboard"; "Latest Deployment Inspector";
           "Latest Preview Deployment"; "Latest Production Deployment" ].
Proof.
  destruct (X7_menu_has_four_sound_entries Sample.unreachable ∅
              Sample.site Sample.acme Sample.crew eq_refl)
    as (chs & H1 & H2 & _).
  by exists chs.
Defined.

(** X8: the entries are filled by the three helpers run one after the
    other, each on its own request: the value of the inspector entry is
    what [getInspectorUrl] returns on the first request, that of the
    preview entry what [getLatestDeploymentUrl] returns on the second, that
    of the production entry what [getLatestProdDeployment] returns on the
    third; an entry carries [not_found] exactly when its helper returned
    [undefined]. *)
Theorem X8_entries_follow_the_helpers
    (w : World) (c : Config) (project : Project) (org : Org)
    (tm : option Team) :
  linking w = Some (project, org, tm) ->
  let s0 := st0 org (start c) in
  let s1 := (getInspectorUrl w project org tm s0).2 in
  let s2 := (getLatestDeploymentUrl w project tm s1).2 in
  exists chs v1 v2 v3,
    shown w c = Some chs
    /\ ch_value <$> chs = [getDashboardUrl org project; v1; v2; v3]
    /\ (forall r, (getInspectorUrl w project org tm s0).1 = Val r ->
          r = None /\ v1 = "not_found" \/ r = Some v1 /\ v1 <> "not_found")
    /\ (forall r, (getLatestDeploymentUrl w project tm s1).1 = Val r ->
          r = None /\ v2 = "not_found" \/ r = Some v2 /\ v2 <> "not_found")
    /\ (forall r, (getLatestProdDeployment w project tm s2).1 = Val r ->
          r = None /\ v3 = "not_found" \/ r = Some v3 /\ v3 <> "not_found").
Proof.
  intros Hl s0 s1 s2.
  destruct (choices_values w project org tm (start c))
    as (Hv & H0 & H1 & H2).
  exists (choices w project org tm (start c)). do 3 eexists.
  split; [by apply shown_linked|]. split; [exact Hv|].
  assert (Hor : forall found r,
            (forall u, found = Some u -> https u) ->
            Val found = Val (A := option string) r ->
            r = None /\ Js.or_else found not_found = "not_found" \/
            r = Some (Js.or_else found not_found) /\
            Js.or_else found not_found <> "not_found").
  { intros found r [[-> ->]|(u & -> & Hu & ->)]%or_else_https [= <-].
    - by left.
    - right. split; [done | by apply https_not_sentinel]. }
  unfold s2, s1, s0.
  rewrite getInspectorUrl_eq. cbn zeta. cbn [fst snd].
  rewrite getLatestDeploymentUrl_eq. cbn zeta. cbn [fst snd].
  rewrite getLatestProdDeployment_eq. cbn zeta. cbn [fst snd].
  split; [|split]; intros r Hr; apply Hor in Hr; auto.
Qed.

Lemma X8_witness :
  exists chs,
    shown (Sample.world (Val Sample.deployed) (Sample.nth_value 1)) ∅ =
      Some chs
    /\ ch_value <$> chs =
         [ "https://vercel.com/acme/site";
           "https://vercel.com/acme/site/abc123";
           "https://site-abc123.vercel.app"; "https://site.vercel.app" ].
Proof.
  destruct (X8_entries_follow_the_helpers
              (Sample.world (Val Sample.deployed) (Sample.nth_value 1)) ∅
              Sample.site Sample.acme Sample.crew eq_refl)
    as (chs & v1 & v2 & v3 & Hs & Hv & H1 & H2 & H3).
  exists chs. split; [exact Hs|]. rewrite Hv.
  destruct (H1 _ eq_refl) as [[? _]|[[= <-] _]]; [done|].
  destruct (H2 _ eq_refl) as [[? _]|[[= <-] _]]; [done|].
  destruct (H3 _ eq_refl) as [[? _]|[[= <-] _]]; [done|].
  reflexivity.
Defined.

(* ===================================================================== *)
(** ** From the answer to the exit code *)
(* ===================================================================== *)

Lemma run_linked_closing w c project org tm :
  linking w = Some (project, org, tm) ->
  (run w c).1 =
    Val (if bool_decide (answer w project org tm c = not_found) then 1
         else 0)
  /\ config (run w c).2 = <["currentTeam" := currentTeamOf org]> c
  /\ trace (run w c).2 =
       trace (asked w project org tm c) ++
       closing w (answer w project org tm c).
Proof.
  intros Hl. rewrite (run_linked _ _ _ _ _ Hl), after_choice_eq.
  unfold closing. repeat case_bool_decide; cbn [fst snd st_emit trace config].
  - done.
  - by rewrite app_nil_r.
  - by rewrite <- app_assoc.
Qed.

(** X9: when the user picks an entry of the menu, the command never takes
    the pick for an abort: either the value is [not_found], and the command
    prints the message, launches nothing and returns 1, or the value is an
    address that starts with [https://], and the command launches [open]
    with it, prints the confirmation and returns 0. *)
Theorem X9_picked_entry_is_https_or_not_found
    (w : World) (c : Config) (chs : list Choice) (a : string) :
  shown w c = Some chs ->
  chosen w c = Some a ->
  a ∈ ch_value <$> chs ->
  (a = "not_found"
   /\ (run w c).1 = Val 1
   /\ last (trace (run w c).2) = Some (ELog (no_deployments_message w))
   /\ (forall file args, EExeca file args ∉ trace (run w c).2))
  \/
  (https a
   /\ exists st1,
        run w c =
          (Val 0, st_emit (ELog (opened_message w a))
                    (st_emit (EExeca "open" [a]) st1))
        /\ (forall file args, EExeca file args ∉ trace st1)).
Proof.
  intros Hs (project & org & tm & Hl & Ha)%chosen_inv Hin.
  rewrite (shown_linked _ _ _ _ _ Hl) in Hs. injection Hs as <-.
  destruct (choices_sound _ _ _ _ _ _ Hin) as [Hne [Hnf|Hh]].
  - left. split; [exact Hnf|].
    destruct (run_linked_closing w c project org tm Hl) as (Hc & _ & Ht).
    rewrite Hc, Ht. unfold closing. rewrite <- Ha, Hnf.
    cbn [bool_decide decide_rel]. rewrite bool_decide_eq_true_2 by done.
    split; [done|]. split; [apply last_snoc|].
    intros file args [H|H%list_elem_of_singleton]%elem_of_app; [|done].
    by apply (quiet_no_launch _ file args (asked_quiet w project org tm c)).
  - right. split; [exact Hh|]. exists (asked w project org tm c).
    destruct (https_not_sentinel _ Hh) as [H1 H2]. split.
    + rewrite (run_linked _ _ _ _ _ Hl), after_choice_eq, <- Ha.
      unfold not_found. by rewrite !bool_decide_eq_false_2.
    + intros. apply quiet_no_launch, asked_quiet.
Qed.

Lemma X9_witness :
  https "https://site.vercel.app"
  /\ exists st1,
       run (Sample.world (Val Sample.deployed) (Sample.nth_value 3)) ∅ =
         (Val 0, st_emit (ELog "🪄 Opened https://site.vercel.app")
                   (st_emit (EExeca "open" ["https://site.vercel.app"]) st1)).
Proof.
  destruct (X9_picked_entry_is_https_or_not_found
              (Sample.world (Val Sample.deployed) (Sample.nth_value 3)) ∅
              (menu "https://vercel.com/acme/site"
                    (Some "https://vercel.com/acme/site/abc123")
                    (Some "https://site-abc123.vercel.app")
                    (Some "https://site.vercel.app"))
              "https://site.vercel.app" eq_refl eq_refl)
    as [(H & _)|(H & st1 & Hr & _)].
  - cbn. rewrite !elem_of_cons. auto.
  - discriminate H.
  - split; [exact H|]. by exists st1.
Defined.

Lemma answer_events_shape t url r :
  Forall (fun e => e = EFetch t url \/ exists msg, e = EError msg)
         (answer_events t url r)
  /\ count_events is_fetch (answer_events t url r) = 1%nat.
Proof.
  unfold answer_events. destruct r; (split; [|reflexivity]).
  - apply Forall_cons. split; [by left | constructor].
  - apply Forall_cons. split; [by left|].
    apply Forall_cons. split; [right; eauto | constructor].
Qed.

Lemma count_events_app p l1 l2 :
  count_events p (l1 ++ l2) = (count_events p l1 + count_events p l2)%nat.
Proof. unfold count_events. by rewrite List.filter_app, length_app. Qed.

(** X10: every run that gets a linked project goes the same way: three
    requests, all to the path of the linked project and all made with the
    new [currentTeam] in place, interleaved only with the messages of those
    that failed; then the menu, once; then either nothing, or the line
    about missing deployments, or one launch of [open] followed by the
    confirmation.  No request is made after the menu is shown and the
    launcher is started at most once. *)
Theorem X10_shape_of_a_linked_run
    (w : World) (c : Config) (project : Project) (org : Org)
    (tm : option Team) :
  linking w = Some (project, org, tm) ->
  exists before chs after,
    trace (run w c).2 = before ++ EPrompt question chs :: after
    /\ shown w c = Some chs
    /\ Forall (fun e =>
                 e = EFetch (Some (currentTeamOf org))
                            (projectUrl w project tm) \/
                 exists msg, e = EError msg) before
    /\ count_events is_fetch before = 3%nat
    /\ (after = []
        \/ after = [ELog (no_deployments_message w)]
        \/ exists url, after = [EExeca "open" [url];
                                ELog (opened_message w url)]).
Proof.
  intros Hl.
  destruct (run_linked_closing w c project org tm Hl) as (_ & _ & Ht).
  set (t := Some (currentTeamOf org)). set (url := projectUrl w project tm).
  exists (answer_events t url (request w project org tm (start c) 0) ++
          answer_events t url (request w project org tm (start c) 1) ++
          answer_events t url (request w project org tm (start c) 2)),
         (choices w project org tm (start c)),
         (closing w (answer w project org tm c)).
  split; [|split; [|split; [|split]]].
  - rewrite Ht. unfold asked, st_emit. cbn [trace]. rewrite trace_st3.
    cbn [start trace app]. by rewrite <- !app_assoc.
  - by apply shown_linked.
  - repeat (apply Forall_app; split); apply answer_events_shape.
  - rewrite !count_events_app.
    by rewrite !(proj2 (answer_events_shape _ _ _)).
  - unfold closing. repeat case_bool_decide; eauto.
Qed.

Lemma X10_witness :
  exists before chs after,
    trace (run Sample.unreachable ∅).2 = before ++ EPrompt question chs :: after
    /\ count_events is_fetch before = 3%nat.
Proof.
  destruct (X10_shape_of_a_linked_run Sample.unreachable ∅
              Sample.site Sample.acme Sample.crew eq_refl)
    as (before & chs & after & H1 & _ & _ & H2 & _).
  by exists before, chs, after.
Defined.

(** X11: a run that gets a linked project and returns, returns 0 or 1:
    it hands no other code back, the 2 of [--help] and the codes of path
    validation and project linking being out of reach by then; and it
    returns 1 exactly when the answer of the prompt is [not_found]. *)
Theorem X11_linked_run_returns_0_or_1
    (w : World) (c : Config) (project : Project) (org : Org)
    (tm : option Team) (code : Z) (st : State) :
  linking w = Some (project, org, tm) ->
  run w c = (Val code, st) ->
  (code = 0 \/ code = 1)
  /\ (code = 1 <-> chosen w c = Some "not_found")
  /\ handed w = None.
Proof.
  intros Hl Hr.
  destruct (after_choice_code w (answer w project org tm c)
              (asked w project org tm c)) as (code' & Hc & H01 & H1).
  rewrite (run_linked _ _ _ _ _ Hl) in Hr. rewrite Hr in Hc.
  injection Hc as <-.
  rewrite (chosen_linked _ _ _ _ _ Hl).
  split; [exact H01|]. split.
  - rewrite H1. split; [by intros -> | by intros [= ->]].
  - apply linking_inv in Hl
      as (argv & scope & path & Ha & Hh & Hs & _ & Hv & Hk).
    unfold handed. by rewrite Ha, Hs, Hh, Hv, Hk.
Qed.

Lemma X11_witness :
  chosen (Sample.world (Val Sample.deployed) (Sample.nth_value 1)) ∅
    <> Some "not_found".
Proof.
  destruct (X11_linked_run_returns_0_or_1
              (Sample.world (Val Sample.deployed) (Sample.nth_value 1)) ∅
              Sample.site Sample.acme Sample.crew 0
              (run (Sample.world (Val Sample.deployed) (Sample.nth_value 1))
                   ∅).2
              eq_refl eq_refl) as (_ & H & _).
  intros Hc. apply H in Hc. discriminate Hc.
Defined.

(** X12: a return value other than 0 and 1 has one of two origins.  It is
    the 2 of [--help], and then the help text is all the command has
    printed; or it is the exit code of path validation or of project
    linking, and then the command has printed nothing.  In both cases
    [client.config] is as it was and no request has been made. *)
Theorem X12_origin_of_other_codes
    (w : World) (c : Config) (code : Z) (st : State) :
  run w c = (Val code, st) ->
  code <> 0 -> code <> 1 ->
  ((exists argv, getArgs w = Val argv /\ flag (arg_help argv) = true)
   /\ code = 2 /\ st = st_emit EHelp (start c))
  \/ (handed_over w code /\ st = start c).
Proof.
  unfold run, open, handed_over.
  destruct (getArgs w) as [argv|e]; [|rewrite emit_ret; by intros [= <- _]].
  destruct (flag (arg_help argv)) eqn:Hh.
  { rewrite emit_ret. intros [= <- <-] _ _. left. eauto. }
  destruct (getScope w) as [scope|err].
  2:{ destruct (scope_error_is_known err); [|done].
      rewrite emit_ret. by intros [= <- _]. }
  destruct (validatePaths w [cwd w]) as [path|exitCode].
  2:{ rewrite ret_eq. intros [= <- <-] _ _. right. auto. }
  destruct (ensureLink w _ path _) as [code'|project org] eqn:Hl.
  { rewrite ret_eq. intros [= <- <-] _ _. right. eauto. }
  erewrite bind_val; [|apply choose_eq]. rewrite after_choice_eq.
  repeat case_bool_decide; by intros [= <- _].
Qed.

Lemma X12_witness :
  exists argv,
    getArgs asking_help = Val argv /\ flag (arg_help argv) = true.
Proof.
  destruct (X12_origin_of_other_codes asking_help ∅ 2
              (st_emit EHelp (start ∅)) eq_refl ltac:(lia) ltac:(lia))
    as [(H & _)|(_ & H)].
  - exact H.
  - discriminate H.
Defined.
